(** * Role-scoped business dashboard: authentication, role dispatch and
      row-level visibility.

    A shallow embedding of

    - [src/types/auth.ts]            the session data model,
    - [contexts/AuthContext.tsx]     [useAuth], the start-up effect of
                                     [AuthProvider], [login] and [logout],
    - [components/Dashboard.tsx]     the role guard, the primary-role fold and
                                     [renderDashboard], with the data fetches
                                     the four role dashboards start on mount,
    - the SQL migration              the policies on [roles], [user_roles],
                                     [clients], [proposals] and [sales], and
                                     the row security that applies them.

    JavaScript exceptions are an explicit [Throw] outcome, React state and
    [localStorage] are threaded through a small state-and-exception monad,
    SQL's three-valued logic is written out for the nullable columns, and a
    [SELECT] under row security answers with rows or with the refusal of
    the statement. *)

From stdpp Require Import base option list strings gmap.
From Stdlib Require Import ZArith Lia.

Local Open Scope string_scope.

(* ===================================================================== *)
(** ** 1. JavaScript outcomes                                              *)
(* ===================================================================== *)

(** A thrown [Error]: the constructor name and the message. *)
Record Error := mkError { error_name : string; message : string }.

Definition new_Error (msg : string) : Error := mkError "Error" msg.
Definition new_TypeError (msg : string) : Error := mkError "TypeError" msg.

(** The result of evaluating an expression that may throw. *)
Inductive Outcome (A : Type) : Type :=
| Ok (a : A)
| Throw (e : Error).
Arguments Ok {A} a.
Arguments Throw {A} e.

Definition is_Ok {A} (o : Outcome A) : bool :=
  match o with Ok _ => true | Throw _ => false end.

(** [Array.prototype.reduce] called without an initial value: the first
    element seeds the accumulator, and an empty array is a [TypeError]. *)
Definition reduce {A} (callback : A -> A -> A) (array : list A) : Outcome A :=
  match array with
  | [] => Throw (new_TypeError "Reduce of empty array with no initial value")
  | first :: rest => Ok (fold_left callback rest first)
  end.

(* ===================================================================== *)
(** ** 2. Data model ([types/auth.ts])                                     *)
(* ===================================================================== *)

Module Role.
Record t := mk
  { id : string; name : string; description : option string; level : Z }.
End Role.

Module Company.
Record t := mk
  { id : string; name : string; description : option string;
    address : option string; phone : option string; email : option string;
    is_active : bool }.
End Company.

Module Site.
Record t := mk
  { id : string; company_id : string; name : string;
    description : option string; address : option string;
    phone : option string; is_active : bool }.
End Site.

Module UserRole.
Record t := mk
  { id : string; role : Role.t; company : option Company.t;
    site : option Site.t; is_active : bool }.
End UserRole.

Module User.
Record t := mk
  { id : string; email : string; first_name : string; last_name : string;
    phone : option string; is_active : bool; roles : list UserRole.t }.
End User.

(** The numeric [level] of an assignment, [current.role.level]. *)
Definition level_of (a : UserRole.t) : Z := Role.level (UserRole.role a).

(* ===================================================================== *)
(** ** 3. The auth context and [useAuth]                                   *)
(* ===================================================================== *)

(** The React state [AuthProvider] owns, which is also the data part of the
    context value it provides ([login] and [logout] are the fixed functions
    of section 6). *)
Record AuthContextType := mkAuth
  { user : option User.t; loading : bool }.

(** [useContext(AuthContext)]: the value of the nearest enclosing provider,
    the innermost first in [providers]; with no provider it is the default
    the context was created with, [undefined]. *)
Definition useContext (providers : list AuthContextType)
  : option AuthContextType :=
  head providers.

Definition useAuth (providers : list AuthContextType)
  : Outcome AuthContextType :=
  match useContext providers with
  | None => Throw (new_Error "useAuth must be used within an AuthProvider")
  | Some context => Ok context
  end.

(* ===================================================================== *)
(** ** 4. [Dashboard]                                                      *)
(* ===================================================================== *)

(** What [renderDashboard] puts in [<main>]. *)
Inductive Panel :=
| SuperAdminDashboard
| CompanyAdminDashboard (userRole : UserRole.t)
| SiteManagerDashboard (userRole : UserRole.t)
| CommercialDashboard (userRole : UserRole.t)
| UnknownRole (role_name : string).

(** What [Dashboard] returns. *)
Inductive Element :=
| NoRoleAssigned
| DashboardPage (header_user : User.t) (header_primaryRole : UserRole.t)
                (main : Panel).

(** The callback of the fold: keep [highest] unless [current] is strictly
    below it. *)
Definition higher (highest current : UserRole.t) : UserRole.t :=
  if (level_of current <? level_of highest)%Z then current else highest.

Definition primaryRole (roles : list UserRole.t) : Outcome UserRole.t :=
  reduce higher roles.

Definition renderDashboard (primaryRole : UserRole.t) : Panel :=
  let name := Role.name (UserRole.role primaryRole) in
  if String.eqb name "Super Admin" then SuperAdminDashboard
  else if String.eqb name "Company Admin" then CompanyAdminDashboard primaryRole
  else if String.eqb name "Site Manager" then SiteManagerDashboard primaryRole
  else if String.eqb name "Commercial" then CommercialDashboard primaryRole
  else UnknownRole name.

Definition Dashboard (providers : list AuthContextType) : Outcome Element :=
  match useAuth providers with
  | Throw e => Throw e
  | Ok context =>
      match user context with
      | None => Ok NoRoleAssigned
      | Some user =>
          if (length (User.roles user) =? 0)%nat then Ok NoRoleAssigned
          else
            match primaryRole (User.roles user) with
            | Throw e => Throw e
            | Ok primary =>
                Ok (DashboardPage user primary (renderDashboard primary))
            end
      end
  end.

(** *** Data fetches started on mount *)

(** A request to the store: the table and the [.eq(column, value)] filters
    on it. *)
Record Query := mkQuery { from : string; eq : list (string * string) }.

(** [fetchDashboardData], run unconditionally by the mount effect. *)
Definition fetchDashboardData : list Query :=
  [ mkQuery "users" []; mkQuery "companies" []; mkQuery "sites" [];
    mkQuery "sales" []; mkQuery "proposals" []; mkQuery "activity_logs" [] ].

(** [fetchCompanyData]: returns at once when the assignment has no company. *)
Definition fetchCompanyData (userRole : UserRole.t) : list Query :=
  match UserRole.company userRole with
  | None => []
  | Some company =>
      let companyId := Company.id company in
      [ mkQuery "user_roles" [("company_id", companyId)];
        mkQuery "sites" [("company_id", companyId)];
        mkQuery "sales" [("proposal.client.company_id", companyId)];
        mkQuery "proposals" [("client.company_id", companyId)];
        mkQuery "activity_logs" [];
        mkQuery "sites" [("company_id", companyId)] ]
  end.

(** [fetchSiteData]: returns at once when the assignment has no site. *)
Definition fetchSiteData (userRole : UserRole.t) : list Query :=
  match UserRole.site userRole with
  | None => []
  | Some site =>
      let siteId := Site.id site in
      [ mkQuery "user_roles" [("site_id", siteId); ("role.name", "Commercial")];
        mkQuery "sales" [("proposal.client.site_id", siteId)];
        mkQuery "proposals" [("client.site_id", siteId)];
        mkQuery "activity_logs" [];
        mkQuery "user_roles" [("site_id", siteId); ("role.name", "Commercial")] ]
  end.

(** [fetchCommercialData]: keyed on the session user, not on the role. *)
Definition fetchCommercialData (user : option User.t) : list Query :=
  match user with
  | None => []
  | Some user =>
      [ mkQuery "sales" [("closed_by", User.id user)];
        mkQuery "proposals" [("created_by", User.id user)];
        mkQuery "clients" [("assigned_to", User.id user)] ]
  end.

(** The requests the mount effects of a rendered element send. Only the four
    role dashboards have such an effect. *)
Definition panel_queries (user : option User.t) (p : Panel) : list Query :=
  match p with
  | SuperAdminDashboard => fetchDashboardData
  | CompanyAdminDashboard userRole => fetchCompanyData userRole
  | SiteManagerDashboard userRole => fetchSiteData userRole
  | CommercialDashboard _ => fetchCommercialData user
  | UnknownRole _ => []
  end.

Definition mount_queries (e : Element) : list Query :=
  match e with
  | NoRoleAssigned => []
  | DashboardPage user _ main => panel_queries (Some user) main
  end.

(* ===================================================================== *)
(** ** 5. The world [AuthProvider] runs in                                 *)
(* ===================================================================== *)

(** The primitives [AuthContext.tsx] imports from the platform; their code is
    not part of the repository, so the development is parametric in them.

    - [bcrypt_compare password hash] is [bcrypt.compare];
    - [JSON_stringify] is [JSON.stringify] at the type [User];
    - [JSON_parse] is [JSON.parse] read at the type [User | null] the state
      is declared with: it throws on text that is not JSON, [Ok None] is
      the value [null]. *)
Class Platform := mkPlatform
  { bcrypt_compare : string -> string -> bool;
    JSON_stringify : User.t -> string;
    JSON_parse : string -> Outcome (option User.t) }.

(** The error object of a store response. *)
Record PostgrestError := mkPostgrestError
  { pg_code : string; pg_message : string }.

(** The [{ data, error }] pair every request resolves to. *)
Record Response (A : Type) := mkResponse
  { data : option A; error : option PostgrestError }.
Arguments mkResponse {A} data error.
Arguments data {A} r.
Arguments error {A} r.

Inductive Table := users_table | user_roles_table | activity_logs_table.

Module users.
Record Row := mk
  { id : string; email : string; password_hash : string;
    first_name : string; last_name : string; phone : option string;
    is_active : bool }.
End users.

Module user_roles.
(** A row of [user_roles] with [role], [company] and [site] joined in, as
    the select of [login] asks for it. *)
Record Row := mk { user_id : string; joined : UserRole.t }.
End user_roles.

Module activity_logs.
Record Insert := mk
  { user_id : string; action : string; resource_type : string;
    details : option (list (string * string)) }.
End activity_logs.

(** The remote store as the client sees it: the rows of the three tables
    [AuthContext.tsx] touches, and for each table the error a request on it
    currently fails with, if any (the store is unreachable, a policy
    rejects the request, ...). A request always resolves to a response:
    the client library reports a failure in [error], it does not throw. *)
Record Supabase := mkSupabase
  { tbl_users : list users.Row;
    tbl_user_roles : list user_roles.Row;
    tbl_activity_logs : list activity_logs.Insert;
    failure : Table -> option PostgrestError }.

Record World := mkWorld
  { auth : AuthContextType;
    localStorage : gmap string string;
    supabase : Supabase }.

(** The session: what [user] holds and what is stored under the key. *)
Definition session (w : World) : option User.t * option string :=
  (user (auth w), localStorage w !! "user").

(** *** A state-and-exception monad for the async functions *)

(** An async function body, run to completion: it transforms the world and
    either fulfils with a value or rejects with the thrown error. Effects
    performed before a throw stay. *)
Definition Async (A : Type) : Type := World -> World * Outcome A.

Definition throw {A} (e : Error) : Async A := fun w => (w, Throw e).

#[export] Instance Async_ret : MRet Async := fun A a w => (w, Ok a).
#[export] Instance Async_bind : MBind Async := fun A B k m w =>
  match m w with
  | (w', Ok a) => k a w'
  | (w', Throw e) => (w', Throw e)
  end.

(** [setUser], [setLoading]. *)
Definition setUser (u : option User.t) : Async unit :=
  fun w => (mkWorld (mkAuth u (loading (auth w))) (localStorage w) (supabase w),
            Ok tt).
Definition setLoading (b : bool) : Async unit :=
  fun w => (mkWorld (mkAuth (user (auth w)) b) (localStorage w) (supabase w),
            Ok tt).

(** [localStorage.getItem], [setItem], [removeItem]. *)
Definition getItem (key : string) : Async (option string) :=
  fun w => (w, Ok (localStorage w !! key)).
Definition setItem (key value : string) : Async unit :=
  fun w => (mkWorld (auth w) (<[key := value]> (localStorage w)) (supabase w),
            Ok tt).
Definition removeItem (key : string) : Async unit :=
  fun w => (mkWorld (auth w) (delete key (localStorage w)) (supabase w), Ok tt).

(** *** The three requests of [AuthContext.tsx] *)

(** [.single()]: exactly one row, or an error and no data. *)
Definition single {A} (rows : list A) : Response A :=
  match rows with
  | [row] => mkResponse (Some row) None
  | _ => mkResponse None
           (Some (mkPostgrestError "PGRST116"
                    "JSON object requested, multiple (or no) rows returned"))
  end.

(** The rows [.eq('email', email).eq('is_active', true)] keeps. *)
Definition active_users (s : Supabase) (email : string) : list users.Row :=
  filter (fun row => users.email row = email /\ users.is_active row = true)
         (tbl_users s).

(** The joined rows [.eq('user_id', user_id).eq('is_active', true)] keeps. *)
Definition active_roles (s : Supabase) (user_id : string) : list UserRole.t :=
  filter (fun a => UserRole.is_active a = true)
         (user_roles.joined <$>
            filter (fun row => user_roles.user_id row = user_id)
                   (tbl_user_roles s)).

(** [from('users').select('*').eq('email', email).eq('is_active', true)
    .single()] *)
Definition select_user (email : string) : Async (Response users.Row) :=
  fun w =>
    match failure (supabase w) users_table with
    | Some e => (w, Ok (mkResponse None (Some e)))
    | None => (w, Ok (single (active_users (supabase w) email)))
    end.

(** [from('user_roles').select(...).eq('user_id', id).eq('is_active', true)] *)
Definition select_user_roles (user_id : string)
  : Async (Response (list UserRole.t)) :=
  fun w =>
    match failure (supabase w) user_roles_table with
    | Some e => (w, Ok (mkResponse None (Some e)))
    | None => (w, Ok (mkResponse (Some (active_roles (supabase w) user_id)) None))
    end.

(** [from('activity_logs').insert(row)]. The caller never looks at the
    response, so a failed insert only leaves the table as it was. *)
Definition insert_activity_log (row : activity_logs.Insert) : Async unit :=
  fun w =>
    match failure (supabase w) activity_logs_table with
    | Some _ => (w, Ok tt)
    | None =>
        let s := supabase w in
        (mkWorld (auth w) (localStorage w)
           (mkSupabase (tbl_users s) (tbl_user_roles s)
              (tbl_activity_logs s ++ [row])%list (failure s)),
         Ok tt)
    end.

(* ===================================================================== *)
(** ** 6. [AuthProvider]: start-up effect, [login], [logout]               *)
(* ===================================================================== *)

(** [useState<User | null>(null)] and [useState(true)]. *)
Definition initial_auth : AuthContextType := mkAuth None true.

(** A string in a condition: only the empty string is falsy. *)
Definition truthy (s : string) : bool := negb (String.eqb s "").

Section AuthProvider.
Context {platform : Platform}.

(** The effect run once after the first render. *)
Definition restore_session : Async unit :=
  storedUser ← getItem "user";
  (match storedUser with
   | Some text =>
       if truthy text then
         match JSON_parse text with
         | Throw e => throw e
         | Ok parsed => setUser parsed
         end
       else mret tt
   | None => mret tt
   end) ;;
  setLoading false.

Definition login (email password : string) : Async unit :=
  res ← select_user email;
  match error res, data res with
  | None, Some userData =>
      if negb (bcrypt_compare password (users.password_hash userData))
      then throw (new_Error "Invalid email or password")
      else
        roles_res ← select_user_roles (users.id userData);
        match error roles_res with
        | Some _ => throw (new_Error "Failed to fetch user roles")
        | None =>
            let user :=
              User.mk (users.id userData) (users.email userData)
                (users.first_name userData) (users.last_name userData)
                (users.phone userData) (users.is_active userData)
                (default [] (data roles_res)) in
            setUser (Some user) ;;
            setItem "user" (JSON_stringify user) ;;
            insert_activity_log
              (activity_logs.mk (User.id user) "login" "auth"
                 (Some [("email", email)]))
        end
  | _, _ => throw (new_Error "Invalid email or password")
  end.

(** [logout] reads the [user] of the render that created it, which is
    passed here as [captured]. *)
Definition logout (captured : option User.t) : Async unit :=
  (match captured with
   | Some user =>
       insert_activity_log
         (activity_logs.mk (User.id user) "logout" "auth" None)
   | None => mret tt
   end) ;;
  setUser None ;;
  removeItem "user".

End AuthProvider.

(** The error of a rejected login, and the session record an accepted one
    builds from the user row and the role rows. *)
Definition invalid_credentials : Error :=
  new_Error "Invalid email or password".

Definition session_user (row : users.Row) (roles : list UserRole.t) : User.t :=
  User.mk (users.id row) (users.email row) (users.first_name row)
    (users.last_name row) (users.phone row) (users.is_active row) roles.

(* ===================================================================== *)
(** ** 7. Row-level policies of the SQL migration                          *)
(* ===================================================================== *)

Module Sql.

Definition uuid := string.

(** *** Three-valued logic: [None] is SQL's NULL / unknown *)

Definition tri := option bool.

(** [a = b] on a nullable column: unknown as soon as one side is NULL. *)
Definition sql_eq (a b : option string) : tri :=
  match a, b with
  | Some x, Some y => Some (String.eqb x y)
  | _, _ => None
  end.

(** [flag = true] on a nullable boolean column. *)
Definition sql_is_true (flag : option bool) : tri := flag.

Definition sql_and (a b : tri) : tri :=
  match a, b with
  | Some false, _ => Some false
  | _, Some false => Some false
  | Some true, Some true => Some true
  | _, _ => None
  end.

Definition sql_or (a b : tri) : tri :=
  match a, b with
  | Some true, _ => Some true
  | _, Some true => Some true
  | Some false, Some false => Some false
  | _, _ => None
  end.

(** A row passes a [WHERE], a join's [ON] or a policy's [USING] only when
    the condition is true; false and unknown both reject it. *)
Definition holds (c : tri) : bool :=
  match c with Some true => true | _ => false end.

(** *** The columns the policies read *)

Module roles.
Record Row := mk { id : uuid; name : string; level : Z }.
End roles.

Module user_roles.
Record Row := mk
  { user_id : option uuid; role_id : option uuid;
    company_id : option uuid; site_id : option uuid;
    is_active : option bool }.
End user_roles.

Module clients.
Record Row := mk
  { id : uuid; company_id : option uuid; site_id : option uuid;
    assigned_to : option uuid }.
End clients.

Module proposals.
Record Row := mk
  { id : uuid; client_id : option uuid; created_by : option uuid }.
End proposals.

Module sales.
Record Row := mk
  { id : uuid; proposal_id : option uuid; closed_by : option uuid }.
End sales.

Record Database := mkDatabase
  { tbl_roles : list roles.Row;
    tbl_user_roles : list user_roles.Row;
    tbl_clients : list clients.Row;
    tbl_proposals : list proposals.Row;
    tbl_sales : list sales.Row }.

(** *** The [USING] expressions

    Each expression is a predicate of the row, the caller [auth.uid()]
    (NULL when there is none) and [db], the database as the sub-selects of
    the expression read it. What they read is decided by the engine, below:
    the relations they select from carry row security themselves. [EXISTS]
    over joined tables is a nested [existsb], in the order of the [FROM]
    clause; [ur.user_id::text = auth.uid()::text] compares the ids. *)
Section Policies.
Variable db : Database.
Variable uid : option uuid.

(** [JOIN roles r ON ur.role_id = r.id] *)
Definition join_role (ur : user_roles.Row) (r : roles.Row) : bool :=
  holds (sql_eq (user_roles.role_id ur) (Some (roles.id r))).

(** [JOIN clients c ON c.id = proposals.client_id] *)
Definition join_client (p : proposals.Row) (c : clients.Row) : bool :=
  holds (sql_eq (Some (clients.id c)) (proposals.client_id p)).

(** [JOIN proposals p ON p.id = sales.proposal_id] *)
Definition join_proposal (s : sales.Row) (p : proposals.Row) : bool :=
  holds (sql_eq (Some (proposals.id p)) (sales.proposal_id s)).

(** [WHERE ur.user_id::text = auth.uid()::text AND r.name = 'Super Admin'
    AND ur.is_active = true] *)
Definition where_super_admin (ur : user_roles.Row) (r : roles.Row) : tri :=
  sql_and
    (sql_and (sql_eq (user_roles.user_id ur) uid)
             (Some (String.eqb (roles.name r) "Super Admin")))
    (sql_is_true (user_roles.is_active ur)).

(** [WHERE ur.user_id::text = auth.uid()::text
    AND ur.company_id = <company_id of the client>
    AND r.name = 'Company Admin' AND ur.is_active = true] *)
Definition where_company_admin (ur : user_roles.Row) (r : roles.Row)
    (company_id : option uuid) : tri :=
  sql_and
    (sql_and
       (sql_and (sql_eq (user_roles.user_id ur) uid)
                (sql_eq (user_roles.company_id ur) company_id))
       (Some (String.eqb (roles.name r) "Company Admin")))
    (sql_is_true (user_roles.is_active ur)).

(** [WHERE ur.user_id::text = auth.uid()::text
    AND ur.site_id = <site_id of the client> AND ur.is_active = true];
    this subquery does not join [roles]. *)
Definition where_site (ur : user_roles.Row) (site_id : option uuid) : tri :=
  sql_and
    (sql_and (sql_eq (user_roles.user_id ur) uid)
             (sql_eq (user_roles.site_id ur) site_id))
    (sql_is_true (user_roles.is_active ur)).

(** The first disjunct of all three policies:
    [EXISTS (SELECT 1 FROM user_roles ur JOIN roles r ON ... WHERE ...)] *)
Definition exists_super_admin : bool :=
  existsb (fun ur =>
    existsb (fun r => join_role ur r && holds (where_super_admin ur r))
      (tbl_roles db))
    (tbl_user_roles db).

(** "Users can view clients in their scope" *)
Definition clients_using (c : clients.Row) : bool :=
  holds
    (sql_or
       (sql_or
          (sql_or
             (Some exists_super_admin)
             (Some
                (existsb (fun ur =>
                   existsb (fun r =>
                     join_role ur r
                     && holds (where_company_admin ur r
                                 (clients.company_id c)))
                     (tbl_roles db))
                   (tbl_user_roles db))))
          (Some
             (existsb (fun ur => holds (where_site ur (clients.site_id c)))
                (tbl_user_roles db))))
       (sql_eq (clients.assigned_to c) uid)).

(** "Users can view proposals in their scope" *)
Definition proposals_using (p : proposals.Row) : bool :=
  holds
    (sql_or
       (sql_or
          (sql_or
             (Some exists_super_admin)
             (Some
                (existsb (fun ur =>
                   existsb (fun r =>
                     existsb (fun c =>
                       join_role ur r && join_client p c
                       && holds (where_company_admin ur r
                                   (clients.company_id c)))
                       (tbl_clients db))
                     (tbl_roles db))
                   (tbl_user_roles db))))
          (Some
             (existsb (fun ur =>
                existsb (fun c =>
                  join_client p c
                  && holds (where_site ur (clients.site_id c)))
                  (tbl_clients db))
                (tbl_user_roles db))))
       (sql_eq (proposals.created_by p) uid)).

(** "Users can view sales in their scope" *)
Definition sales_using (s : sales.Row) : bool :=
  holds
    (sql_or
       (sql_or
          (sql_or
             (Some exists_super_admin)
             (Some
                (existsb (fun ur =>
                   existsb (fun r =>
                     existsb (fun p =>
                       existsb (fun c =>
                         join_role ur r && join_proposal s p
                         && join_client p c
                         && holds (where_company_admin ur r
                                     (clients.company_id c)))
                         (tbl_clients db))
                       (tbl_proposals db))
                     (tbl_roles db))
                   (tbl_user_roles db))))
          (Some
             (existsb (fun ur =>
                existsb (fun p =>
                  existsb (fun c =>
                    join_proposal s p && join_client p c
                    && holds (where_site ur (clients.site_id c)))
                    (tbl_clients db))
                  (tbl_proposals db))
                (tbl_user_roles db))))
       (sql_eq (sales.closed_by s) uid)).

(** "Users can view their own roles", [FOR SELECT]:
    [user_id::text = auth.uid()::text]. *)
Definition user_roles_own (ur : user_roles.Row) : tri :=
  sql_eq (user_roles.user_id ur) uid.

(** "Super admins can manage all user roles", [FOR ALL]: the same
    sub-select on [user_roles] and [roles] as the first disjunct above. *)
Definition user_roles_manage (ur : user_roles.Row) : tri :=
  Some exists_super_admin.

(** A [SELECT] on [user_roles] is subject to both policies; permissive
    policies are combined with [OR]. *)
Definition user_roles_using (ur : user_roles.Row) : bool :=
  holds (sql_or (user_roles_own ur) (user_roles_manage ur)).

End Policies.

(** "Users can view roles": [USING (true)]. *)
Definition roles_using (r : roles.Row) : bool := holds (Some true).

(** *** Row security

    The migration enables row security on every table. A statement run by
    a role that is subject to it is rewritten before it runs: the policies
    of each relation it reads are added to it, and so are, in turn, the
    policies of the relations their sub-selects read. When a relation comes
    up again while its own policies are being added, the statement is
    refused with SQLSTATE 42P17, "infinite recursion detected in policy for
    relation"; this depends on the policies alone, not on the rows. The
    owner of the tables and roles with the bypass attribute are not subject
    to row security: for them no policy is added. *)

Inductive Relation :=
| rel_roles | rel_user_roles | rel_clients | rel_proposals | rel_sales.

Definition Relation_eqb (a b : Relation) : bool :=
  match a, b with
  | rel_roles, rel_roles | rel_user_roles, rel_user_roles
  | rel_clients, rel_clients | rel_proposals, rel_proposals
  | rel_sales, rel_sales => true
  | _, _ => false
  end.

(** The relations the sub-selects of a relation's policies select from, in
    the order of their [FROM] clauses:

    - [roles]: none, the policy is [USING (true)];
    - [user_roles]: its [FOR ALL] policy selects from [user_roles] and
      [roles];
    - [clients]: [user_roles] and [roles];
    - [proposals]: [user_roles], [roles] and [clients];
    - [sales]: [user_roles], [roles], [proposals] and [clients]. *)
Definition policy_reads (t : Relation) : list Relation :=
  match t with
  | rel_roles => []
  | rel_user_roles => [rel_user_roles; rel_roles]
  | rel_clients => [rel_user_roles; rel_roles]
  | rel_proposals => [rel_user_roles; rel_roles; rel_clients]
  | rel_sales => [rel_user_roles; rel_roles; rel_proposals; rel_clients]
  end.

(** Adding the policies of [t] while those of [active] are being added:
    [Some r] when relation [r] comes up a second time. A chain of distinct
    relations has at most five links, which bounds the depth. *)
Fixpoint recursion_in (depth : nat) (active : list Relation) (t : Relation)
  : option Relation :=
  if existsb (Relation_eqb t) active then Some t
  else
    match depth with
    | O => None
    | S depth' =>
        (fix scan (reads : list Relation) : option Relation :=
           match reads with
           | [] => None
           | r :: rest =>
               match recursion_in depth' (t :: active) r with
               | Some again => Some again
               | None => scan rest
               end
           end) (policy_reads t)
    end.

Definition expansion_depth : nat := 6.

(** [acc] with the rows of relation [r] cut down to those its policies
    pass, the sub-selects of these policies reading [readable]. *)
Definition secure (r : Relation) (readable : Database) (uid : option uuid)
    (acc : Database) : Database :=
  match r with
  | rel_roles =>
      mkDatabase (List.filter roles_using (tbl_roles acc))
        (tbl_user_roles acc) (tbl_clients acc) (tbl_proposals acc)
        (tbl_sales acc)
  | rel_user_roles =>
      mkDatabase (tbl_roles acc)
        (List.filter (user_roles_using readable uid) (tbl_user_roles acc))
        (tbl_clients acc) (tbl_proposals acc) (tbl_sales acc)
  | rel_clients =>
      mkDatabase (tbl_roles acc) (tbl_user_roles acc)
        (List.filter (clients_using readable uid) (tbl_clients acc))
        (tbl_proposals acc) (tbl_sales acc)
  | rel_proposals =>
      mkDatabase (tbl_roles acc) (tbl_user_roles acc) (tbl_clients acc)
        (List.filter (proposals_using readable uid) (tbl_proposals acc))
        (tbl_sales acc)
  | rel_sales =>
      mkDatabase (tbl_roles acc) (tbl_user_roles acc) (tbl_clients acc)
        (tbl_proposals acc)
        (List.filter (sales_using readable uid) (tbl_sales acc))
  end.

(** The database as the sub-selects of the policies of [t] read it: each
    relation they select from is cut down by its own policies, whose
    sub-selects read the database cut down in the same way. *)
Fixpoint view (depth : nat) (t : Relation) (db : Database)
    (uid : option uuid) : Database :=
  match depth with
  | O => db
  | S depth' =>
      fold_left (fun acc r => secure r (view depth' r db uid) uid acc)
        (policy_reads t) db
  end.

(** Whether the role that runs the statement is subject to row security. *)
Inductive Session := under_row_security | bypassing_row_security.

(** What a [SELECT] gets back: the rows, or the refusal of the statement
    with its SQLSTATE and the relation the message names. *)
Inductive Answer (A : Type) : Type :=
| Rows (rows : list A)
| Refused (sqlstate : string) (relation : Relation).
Arguments Rows {A} rows.
Arguments Refused {A} sqlstate relation.

(** [SELECT * FROM t] for the caller [uid]. *)
Definition select_from {A : Type} (session : Session) (t : Relation)
    (passes : Database -> option uuid -> A -> bool)
    (table : Database -> list A) (db : Database) (uid : option uuid)
  : Answer A :=
  match session with
  | bypassing_row_security => Rows (table db)
  | under_row_security =>
      match recursion_in expansion_depth [] t with
      | Some again => Refused "42P17" again
      | None =>
          Rows (List.filter (passes (view expansion_depth t db uid) uid)
                  (table db))
      end
  end.

Definition sql_select_roles (session : Session) :=
  select_from session rel_roles (fun _ _ => roles_using) tbl_roles.
Definition sql_select_user_roles (session : Session) :=
  select_from session rel_user_roles user_roles_using tbl_user_roles.
Definition sql_select_clients (session : Session) :=
  select_from session rel_clients clients_using tbl_clients.
Definition sql_select_proposals (session : Session) :=
  select_from session rel_proposals proposals_using tbl_proposals.
Definition sql_select_sales (session : Session) :=
  select_from session rel_sales sales_using tbl_sales.

End Sql.

(* ===================================================================== *)
(** ** 8. The [USING] expressions in logical form, and the boundary model
       of the specification                                                *)
(* ===================================================================== *)

Module Scope.
Import Sql.

(** *** What the [USING] expressions test, as propositions over the
    database their sub-selects read *)
Section Passes.
Variable db : Database.
Variable u : uuid.

(** [ur] is a row of [user_roles] for caller [u] with [is_active] true. *)
Definition active_assignment (ur : user_roles.Row) : Prop :=
  In ur (tbl_user_roles db)
  /\ user_roles.user_id ur = Some u
  /\ user_roles.is_active ur = Some true.

(** The role [ur] refers to exists and is called [n]. *)
Definition role_named (ur : user_roles.Row) (n : string) : Prop :=
  exists r, In r (tbl_roles db)
            /\ user_roles.role_id ur = Some (roles.id r)
            /\ roles.name r = n.

Definition super_admin : Prop :=
  exists ur, active_assignment ur /\ role_named ur "Super Admin".

Definition company_admin_of (company : uuid) : Prop :=
  exists ur, active_assignment ur /\ role_named ur "Company Admin"
             /\ user_roles.company_id ur = Some company.

(** Any active assignment on the site, whatever its role. *)
Definition assigned_to_site (site : uuid) : Prop :=
  exists ur, active_assignment ur /\ user_roles.site_id ur = Some site.

(** The client row lies in a company the caller administers or on a
    site the caller is assigned to. *)
Definition in_scope (c : clients.Row) : Prop :=
  (exists company, clients.company_id c = Some company
                   /\ company_admin_of company)
  \/ (exists site, clients.site_id c = Some site /\ assigned_to_site site).

Definition client_of (p : proposals.Row) (c : clients.Row) : Prop :=
  In c (tbl_clients db) /\ proposals.client_id p = Some (clients.id c).

Definition proposal_of (s : sales.Row) (p : proposals.Row) : Prop :=
  In p (tbl_proposals db) /\ sales.proposal_id s = Some (proposals.id p).

Definition passes_client (c : clients.Row) : Prop :=
  super_admin \/ in_scope c \/ clients.assigned_to c = Some u.

Definition passes_proposal (p : proposals.Row) : Prop :=
  super_admin
  \/ (exists c, client_of p c /\ in_scope c)
  \/ proposals.created_by p = Some u.

Definition passes_sale (s : sales.Row) : Prop :=
  super_admin
  \/ (exists p c, proposal_of s p /\ client_of p c /\ in_scope c)
  \/ sales.closed_by s = Some u.
End Passes.

(** *** The boundary model, from the words of the specification

    "Scope Resolver: the primary Assignment (minimum level) and a
    visibility boundary, one of Global (role level 1), CompanyScoped
    (level 2), SiteScoped (level 3), SelfScoped (level 4 or no
    assignment)"; "Access Filter: restricting rows to the caller's
    boundary, by joining through the entity's Company/Site/assignee
    reference chain". These definitions follow that text, not the code;
    they are what the code is compared with. *)

Inductive Boundary :=
| Global
| CompanyScoped (companyId : uuid)
| SiteScoped (siteId : uuid)
| SelfScoped (userId : uuid).

(** The caller's active assignments, each with its role. *)
Definition spec_assignments (db : Database) (u : uuid)
  : list (user_roles.Row * roles.Row) :=
  flat_map
    (fun ur =>
       if holds (sql_eq (user_roles.user_id ur) (Some u))
          && holds (sql_is_true (user_roles.is_active ur))
       then map (pair ur) (List.filter (join_role ur) (tbl_roles db))
       else [])
    (tbl_user_roles db).

(** The assignment of numerically least level, the first on a tie. *)
Definition spec_primary (l : list (user_roles.Row * roles.Row))
  : option (user_roles.Row * roles.Row) :=
  match l with
  | [] => None
  | a :: rest =>
      Some (fold_left
              (fun best cur =>
                 if (roles.level (snd cur) <? roles.level (snd best))%Z
                 then cur else best)
              rest a)
  end.

(** The boundary of the primary assignment; [None] where the text names
    none (a level outside 1..4, a company or site level without one). *)
Definition spec_boundary (db : Database) (u : uuid) : option Boundary :=
  match spec_primary (spec_assignments db u) with
  | None => Some (SelfScoped u)
  | Some (ur, r) =>
      match roles.level r with
      | 1%Z => Some Global
      | 2%Z => CompanyScoped <$> user_roles.company_id ur
      | 3%Z => SiteScoped <$> user_roles.site_id ur
      | 4%Z => Some (SelfScoped u)
      | _ => None
      end
  end.

Definition is_id (column : option uuid) (x : uuid) : bool :=
  holds (sql_eq column (Some x)).

Definition spec_client_visible (b : Boundary) (c : clients.Row) : bool :=
  match b with
  | Global => true
  | CompanyScoped companyId => is_id (clients.company_id c) companyId
  | SiteScoped siteId => is_id (clients.site_id c) siteId
  | SelfScoped userId => is_id (clients.assigned_to c) userId
  end.

Definition spec_proposal_visible (db : Database) (b : Boundary)
    (p : proposals.Row) : bool :=
  match b with
  | Global => true
  | CompanyScoped companyId =>
      existsb (fun c => is_id (proposals.client_id p) (clients.id c)
                        && is_id (clients.company_id c) companyId)
        (tbl_clients db)
  | SiteScoped siteId =>
      existsb (fun c => is_id (proposals.client_id p) (clients.id c)
                        && is_id (clients.site_id c) siteId)
        (tbl_clients db)
  | SelfScoped userId => is_id (proposals.created_by p) userId
  end.

Definition spec_sale_visible (db : Database) (b : Boundary)
    (s : sales.Row) : bool :=
  match b with
  | Global => true
  | SelfScoped userId => is_id (sales.closed_by s) userId
  | _ =>
      existsb (fun p => is_id (sales.proposal_id s) (proposals.id p)
                        && spec_proposal_visible db b p)
        (tbl_proposals db)
  end.

(** *** The sample rows of the migration

    The ids the migration draws at random are written as names. *)

Definition sample_roles : list roles.Row :=
  [ roles.mk "role-super-admin" "Super Admin" 1;
    roles.mk "role-company-admin" "Company Admin" 2;
    roles.mk "role-site-manager" "Site Manager" 3;
    roles.mk "role-commercial" "Commercial" 4 ].

Definition sample_user_roles : list user_roles.Row :=
  [ user_roles.mk (Some "superadmin@example.com") (Some "role-super-admin")
      None None (Some true);
    user_roles.mk (Some "admin@example.com") (Some "role-company-admin")
      (Some "TechCorp Solutions") None (Some true);
    user_roles.mk (Some "amine@example.com") (Some "role-site-manager")
      (Some "TechCorp Solutions") (Some "TechCorp HQ") (Some true);
    user_roles.mk (Some "soukaina@example.com") (Some "role-commercial")
      (Some "TechCorp Solutions") (Some "TechCorp HQ") (Some true) ].

Definition acme :=
  clients.mk "Acme Corporation" (Some "TechCorp Solutions")
    (Some "TechCorp HQ") (Some "soukaina@example.com").
Definition beta :=
  clients.mk "Beta Industries" (Some "TechCorp Solutions")
    (Some "TechCorp HQ") (Some "soukaina@example.com").
Definition gamma :=
  clients.mk "Gamma Enterprises" (Some "TechCorp Solutions")
    (Some "TechCorp East") None.
Definition delta :=
  clients.mk "Delta Manufacturing" (Some "Global Industries")
    (Some "Global Manufacturing") None.

Definition sample_clients : list clients.Row := [acme; beta; gamma; delta].

Definition enterprise_software :=
  proposals.mk "Enterprise Software Solution" (Some "Acme Corporation")
    (Some "soukaina@example.com").
Definition cloud_migration :=
  proposals.mk "Cloud Migration Services" (Some "Beta Industries")
    (Some "soukaina@example.com").
Definition digital_transformation :=
  proposals.mk "Digital Transformation" (Some "Gamma Enterprises")
    (Some "amine@example.com").
Definition manufacturing_automation :=
  proposals.mk "Manufacturing Automation" (Some "Delta Manufacturing")
    (Some "admin@example.com").

Definition sample_sales : list sales.Row :=
  [ sales.mk "sale-1" (Some "Enterprise Software Solution")
      (Some "soukaina@example.com");
    sales.mk "sale-2" (Some "Cloud Migration Services")
      (Some "soukaina@example.com") ].

Definition sample_db : Database :=
  mkDatabase sample_roles sample_user_roles sample_clients
    [ enterprise_software; cloud_migration; digital_transformation;
      manufacturing_automation ]
    sample_sales.

(** The sample rows with more assignments: a company admin of the second
    company; a user who is company admin of the first company and site
    manager on a site of the second; a second commercial on the first
    site. *)
Definition company2_admin :=
  user_roles.mk (Some "companyadmin@company2") (Some "role-company-admin")
    (Some "Global Industries") None (Some true).
Definition dual_company_admin :=
  user_roles.mk (Some "dual@example.com") (Some "role-company-admin")
    (Some "TechCorp Solutions") None (Some true).
Definition dual_site_manager :=
  user_roles.mk (Some "dual@example.com") (Some "role-site-manager")
    (Some "Global Industries") (Some "Global Manufacturing") (Some true).
Definition second_commercial :=
  user_roles.mk (Some "youssef@example.com") (Some "role-commercial")
    (Some "TechCorp Solutions") (Some "TechCorp HQ") (Some true).

Definition scenario_db : Database :=
  mkDatabase sample_roles
    (sample_user_roles ++
       [ company2_admin; dual_company_admin; dual_site_manager;
         second_commercial ])%list
    sample_clients (tbl_proposals sample_db) sample_sales.

End Scope.

(* ===================================================================== *)
(** ** 9. Stand-ins for the platform and sample session data               *)
(* ===================================================================== *)

(** A session user with two Site Manager assignments on the same level and
    a Commercial one. *)
Definition site_manager_role : Role.t :=
  Role.mk "role-site-manager" "Site Manager" None 3.
Definition commercial_role : Role.t :=
  Role.mk "role-commercial" "Commercial" None 4.
Definition auditor_role : Role.t :=
  Role.mk "role-auditor" "Auditor" None 3.

Definition techcorp : Company.t :=
  Company.mk "TechCorp Solutions" "TechCorp Solutions" None None None None true.
Definition techcorp_hq : Site.t :=
  Site.mk "TechCorp HQ" "TechCorp Solutions" "TechCorp HQ" None None None true.
Definition techcorp_east : Site.t :=
  Site.mk "TechCorp East" "TechCorp Solutions" "TechCorp East" None None None
    true.

Definition as_commercial : UserRole.t :=
  UserRole.mk "ur-1" commercial_role (Some techcorp) (Some techcorp_hq) true.
Definition as_manager_hq : UserRole.t :=
  UserRole.mk "ur-2" site_manager_role (Some techcorp) (Some techcorp_hq) true.
Definition as_manager_east : UserRole.t :=
  UserRole.mk "ur-3" site_manager_role (Some techcorp) (Some techcorp_east)
    true.
Definition as_auditor : UserRole.t :=
  UserRole.mk "ur-4" auditor_role (Some techcorp) None true.

Definition amine : User.t :=
  User.mk "amine" "amine@example.com" "Amine" "Manager" (Some "+1234567892")
    true [as_commercial; as_manager_hq; as_manager_east].

(** A user whose lowest level belongs to a role outside the four names,
    and a user without any assignment. *)
Definition eve : User.t :=
  User.mk "eve" "eve@example.com" "Eve" "Auditor" None true
    [as_commercial; as_auditor].
Definition nora : User.t :=
  User.mk "nora" "nora@example.com" "Nora" "New" None true [].

Definition amine_row : users.Row :=
  users.mk "amine" "amine@example.com" "hashed:password123" "Amine" "Manager"
    (Some "+1234567892") true.

(** An instance of the platform to run the model on: a password matches the
    hash that carries it behind a fixed prefix, a user is written as its id,
    and the only texts that parse are [null] and the record of [amine]. *)
Definition sample_platform : Platform :=
  mkPlatform
    (fun password hash => String.eqb hash ("hashed:" ++ password))
    (fun u => "user:" ++ User.id u)
    (fun text =>
       if String.eqb text "null" then Ok None
       else if String.eqb text "user:amine" then Ok (Some amine)
       else Throw (mkError "SyntaxError" "Unexpected token in JSON")).

Definition no_failure : Table -> option PostgrestError := fun _ => None.

Definition sample_store : Supabase :=
  mkSupabase [amine_row]
    [ user_roles.mk "amine" as_commercial;
      user_roles.mk "amine" as_manager_hq;
      user_roles.mk "amine" as_manager_east ]
    [] no_failure.

(** The store with the role query failing. *)
Definition store_roles_down : Supabase :=
  mkSupabase (tbl_users sample_store) (tbl_user_roles sample_store) []
    (fun t => match t with
              | user_roles_table =>
                  Some (mkPostgrestError "503" "Service Unavailable")
              | _ => None
              end).

Definition fresh_world (s : Supabase) : World := mkWorld initial_auth ∅ s.

(** A first render whose storage holds text that is not JSON. *)
Definition corrupt_world : World :=
  mkWorld initial_auth {[ "user" := "{oops" ]} sample_store.

(* ===================================================================== *)
(** * Theorems                                                             *)
(* ===================================================================== *)

(* ===================================================================== *)
(** ** [useAuth]                                                           *)
(* ===================================================================== *)

(** C10. Outside any [AuthProvider] the context value is [undefined] and
    [useAuth] throws instead of returning an unauthenticated value; under a
    provider it returns the value of the nearest one. *)
Theorem useAuth_requires_provider :
  useAuth [] = Throw (new_Error "useAuth must be used within an AuthProvider")
  /\ forall (value : AuthContextType) (outer : list AuthContextType),
       useAuth (value :: outer) = Ok value.
Proof. split; [reflexivity | intros; reflexivity]. Qed.

(* ===================================================================== *)
(** ** The primary role                                                    *)
(* ===================================================================== *)

Section PrimaryRole.

Implicit Types (a p highest : UserRole.t) (rest : list UserRole.t).

Lemma higher_cases highest a :
  (higher highest a = a /\ (level_of a < level_of highest)%Z)
  \/ (higher highest a = highest /\ (level_of highest <= level_of a)%Z).
Proof.
  unfold higher. destruct (Z.ltb_spec (level_of a) (level_of highest)); auto.
Qed.

(** The fold returns one of the elements it saw, and none of them lies
    below it. *)
Lemma fold_higher_min rest : forall highest,
  let p := fold_left higher rest highest in
  In p (highest :: rest)
  /\ forall a, In a (highest :: rest) -> (level_of p <= level_of a)%Z.
Proof.
  induction rest as [|x rest IH]; intros highest; simpl.
  - split; [auto|]. intros a [<-|[]]. lia.
  - destruct (IH (higher highest x)) as [Hin Hmin].
    assert (Hacc : (level_of (fold_left higher rest (higher highest x))
                    <= level_of (higher highest x))%Z)
      by (apply Hmin; left; reflexivity).
    destruct (higher_cases highest x) as [[E Hlv]|[E Hlv]];
      rewrite E in *; (split; [simpl in Hin; tauto|]);
      intros a [<-|[<-|Ha]]; try lia; apply Hmin; right; exact Ha.
Qed.

(** Nothing at or above the accumulator's level replaces it. *)
Lemma fold_higher_stays rest : forall highest,
  (forall a, In a rest -> (level_of highest <= level_of a)%Z) ->
  fold_left higher rest highest = highest.
Proof.
  induction rest as [|x rest IH]; intros highest Hge; simpl; [reflexivity|].
  destruct (higher_cases highest x) as [[_ Hlt]|[E _]].
  - specialize (Hge x (or_introl eq_refl)). lia.
  - rewrite E. apply IH. intros a Ha. apply Hge. right. exact Ha.
Qed.

Lemma primaryRole_nonempty rest :
  rest <> [] -> exists p, primaryRole rest = Ok p.
Proof. destruct rest; [congruence | intros _; eexists; reflexivity]. Qed.

Lemma primaryRole_Ok_nonempty rest p : primaryRole rest = Ok p -> rest <> [].
Proof. destruct rest; [discriminate | congruence]. Qed.

Lemma primaryRole_first_min before after p :
  (forall a, In a before -> (level_of p < level_of a)%Z) ->
  (forall a, In a after -> (level_of p <= level_of a)%Z) ->
  primaryRole (before ++ p :: after)%list = Ok p.
Proof.
  intros Hbefore Hafter. unfold primaryRole, reduce.
  destruct before as [|first before]; simpl.
  - f_equal. apply fold_higher_stays. exact Hafter.
  - f_equal. rewrite fold_left_app. simpl.
    destruct (fold_higher_min before first) as [Hin _]. simpl in Hin.
    set (acc := fold_left higher before first) in *.
    assert (Hlt : (level_of p < level_of acc)%Z)
      by (apply Hbefore; simpl; exact Hin).
    destruct (higher_cases acc p) as [[E _]|[_ ?]]; [|lia].
    rewrite E. apply fold_higher_stays. exact Hafter.
Qed.

End PrimaryRole.

Lemma Dashboard_page (u : User.t) (p : UserRole.t) (ld : bool)
    (outer : list AuthContextType) :
  primaryRole (User.roles u) = Ok p ->
  Dashboard (mkAuth (Some u) ld :: outer)
  = Ok (DashboardPage u p (renderDashboard p)).
Proof.
  intros Hp. unfold Dashboard. simpl.
  destruct (User.roles u) as [|first rest]; [discriminate|].
  cbn in Hp. injection Hp as <-. reflexivity.
Qed.

(** C2. For a user with at least one assignment in [user.roles], the
    dashboard resolves a primary assignment that is an element of
    [user.roles] and whose [level] is the numeric minimum of the levels of
    all of them. *)
Theorem primaryRole_is_minimum (u : User.t) (ld : bool)
    (outer : list AuthContextType) :
  User.roles u <> [] ->
  exists p,
    primaryRole (User.roles u) = Ok p
    /\ Dashboard (mkAuth (Some u) ld :: outer)
       = Ok (DashboardPage u p (renderDashboard p))
    /\ In p (User.roles u)
    /\ forall a, In a (User.roles u) -> (level_of p <= level_of a)%Z.
Proof.
  intros Hne. destruct (primaryRole_nonempty _ Hne) as [p Hp].
  exists p. split; [exact Hp|]. split; [apply Dashboard_page, Hp|].
  destruct (User.roles u) as [|first rest]; [congruence|].
  injection Hp as <-. apply fold_higher_min.
Qed.

Lemma primaryRole_is_minimum_witness :
  exists p,
    primaryRole (User.roles amine) = Ok p
    /\ Dashboard (mkAuth (Some amine) false :: [])
       = Ok (DashboardPage amine p (renderDashboard p))
    /\ In p (User.roles amine)
    /\ forall a, In a (User.roles amine) -> (level_of p <= level_of a)%Z.
Proof. apply (primaryRole_is_minimum amine false []). discriminate. Defined.

(** C8. When several assignments share the minimum level, the primary role
    is the first of them in the order of [user.roles]: an assignment [p]
    with only strictly higher levels before it and no lower level after it
    is the one the dashboard resolves. *)
Theorem primaryRole_first_of_ties (u : User.t) (ld : bool)
    (outer : list AuthContextType) (before after : list UserRole.t)
    (p : UserRole.t) :
  User.roles u = (before ++ p :: after)%list ->
  (forall a, In a before -> (level_of p < level_of a)%Z) ->
  (forall a, In a after -> (level_of p <= level_of a)%Z) ->
  primaryRole (User.roles u) = Ok p
  /\ Dashboard (mkAuth (Some u) ld :: outer)
     = Ok (DashboardPage u p (renderDashboard p)).
Proof.
  intros Hroles Hbefore Hafter.
  assert (Hp : primaryRole (User.roles u) = Ok p)
    by (rewrite Hroles; apply primaryRole_first_min; assumption).
  split; [exact Hp | apply Dashboard_page, Hp].
Qed.

Lemma primaryRole_first_of_ties_witness :
  primaryRole (User.roles amine) = Ok as_manager_hq
  /\ Dashboard (mkAuth (Some amine) false :: [])
     = Ok (DashboardPage amine as_manager_hq
             (renderDashboard as_manager_hq)).
Proof.
  apply (primaryRole_first_of_ties amine false [] [as_commercial]
           [as_manager_east] as_manager_hq).
  - reflexivity.
  - intros a [<-|[]]. vm_compute. reflexivity.
  - intros a [<-|[]]. vm_compute. discriminate.
Defined.

(* ===================================================================== *)
(** ** The role guard and the role-name dispatch                           *)
(* ===================================================================== *)

Lemma renderDashboard_unknown (p : UserRole.t) :
  let name := Role.name (UserRole.role p) in
  name <> "Super Admin" -> name <> "Company Admin" ->
  name <> "Site Manager" -> name <> "Commercial" ->
  renderDashboard p = UnknownRole name.
Proof.
  intros name H1 H2 H3 H4. unfold renderDashboard. fold name.
  apply String.eqb_neq in H1, H2, H3, H4.
  rewrite H1, H2, H3, H4. reflexivity.
Qed.

(** The four names, and only they, select a role dashboard. *)
Lemma renderDashboard_known (p : UserRole.t) :
  let name := Role.name (UserRole.role p) in
  (name = "Super Admin" -> renderDashboard p = SuperAdminDashboard)
  /\ (name = "Company Admin" -> renderDashboard p = CompanyAdminDashboard p)
  /\ (name = "Site Manager" -> renderDashboard p = SiteManagerDashboard p)
  /\ (name = "Commercial" -> renderDashboard p = CommercialDashboard p).
Proof.
  unfold renderDashboard. cbv zeta.
  repeat split; intros ->; reflexivity.
Qed.

(** C9. For an authenticated user whose primary role is named none of
    'Super Admin', 'Company Admin', 'Site Manager', 'Commercial', the
    dashboard shows the explicit 'Unknown Role' state with that name, mounts
    none of the four role dashboards and sends no request. *)
Theorem unknown_role_fails_closed (u : User.t) (p : UserRole.t) (ld : bool)
    (outer : list AuthContextType) :
  primaryRole (User.roles u) = Ok p ->
  Role.name (UserRole.role p) <> "Super Admin" ->
  Role.name (UserRole.role p) <> "Company Admin" ->
  Role.name (UserRole.role p) <> "Site Manager" ->
  Role.name (UserRole.role p) <> "Commercial" ->
  renderDashboard p = UnknownRole (Role.name (UserRole.role p))
  /\ Dashboard (mkAuth (Some u) ld :: outer)
     = Ok (DashboardPage u p (UnknownRole (Role.name (UserRole.role p))))
  /\ mount_queries
       (DashboardPage u p (UnknownRole (Role.name (UserRole.role p)))) = [].
Proof.
  intros Hp H1 H2 H3 H4.
  pose proof (renderDashboard_unknown p H1 H2 H3 H4) as Hr.
  split; [exact Hr|]. split; [|reflexivity].
  rewrite <- Hr. apply Dashboard_page, Hp.
Qed.

Lemma unknown_role_fails_closed_witness :
  renderDashboard as_auditor = UnknownRole "Auditor"
  /\ Dashboard (mkAuth (Some eve) false :: [])
     = Ok (DashboardPage eve as_auditor (UnknownRole "Auditor"))
  /\ mount_queries (DashboardPage eve as_auditor (UnknownRole "Auditor")) = [].
Proof.
  apply (unknown_role_fails_closed eve as_auditor false []);
    [reflexivity | discriminate | discriminate | discriminate | discriminate].
Defined.

Lemma Dashboard_empty_roles (u : User.t) (ld : bool)
    (outer : list AuthContextType) :
  User.roles u = [] ->
  Dashboard (mkAuth (Some u) ld :: outer) = Ok NoRoleAssigned.
Proof. intros Hroles. unfold Dashboard. simpl. rewrite Hroles. reflexivity. Qed.

(** C4. A session user with no assignment in [user.roles] gets the 'No Role
    Assigned' element: [Dashboard] returns normally, before the fold that
    would throw on the empty array, no role dashboard is mounted and the
    rendered element sends no request. *)
Theorem no_role_short_circuits (u : User.t) (ld : bool)
    (outer : list AuthContextType) :
  User.roles u = [] ->
  Dashboard (mkAuth (Some u) ld :: outer) = Ok NoRoleAssigned
  /\ (forall e, Dashboard (mkAuth (Some u) ld :: outer) = Ok e ->
                mount_queries e = [])
  /\ is_Ok (primaryRole (User.roles u)) = false.
Proof.
  intros Hroles.
  pose proof (Dashboard_empty_roles u ld outer Hroles) as HD.
  split; [exact HD|]. split.
  - intros e He. rewrite HD in He. injection He as <-. reflexivity.
  - rewrite Hroles. reflexivity.
Qed.

Lemma no_role_short_circuits_witness :
  Dashboard (mkAuth (Some nora) false :: []) = Ok NoRoleAssigned
  /\ (forall e, Dashboard (mkAuth (Some nora) false :: []) = Ok e ->
                mount_queries e = [])
  /\ is_Ok (primaryRole (User.roles nora)) = false.
Proof. apply (no_role_short_circuits nora false []). reflexivity. Defined.

(** Without a session user the guard takes the same branch. *)
Lemma Dashboard_logged_out (ld : bool) (outer : list AuthContextType) :
  Dashboard (mkAuth None ld :: outer) = Ok NoRoleAssigned.
Proof. reflexivity. Qed.

(** With at least one assignment a page is rendered, so the restricted
    state is reached exactly when [user.roles] is empty. *)
Lemma Dashboard_no_role_iff (u : User.t) (ld : bool)
    (outer : list AuthContextType) :
  Dashboard (mkAuth (Some u) ld :: outer) = Ok NoRoleAssigned
  <-> User.roles u = [].
Proof.
  split.
  - intros HD. destruct (User.roles u) as [|a rest] eqn:E; [reflexivity|].
    unfold Dashboard in HD. simpl in HD. rewrite E in HD. discriminate.
  - apply Dashboard_empty_roles.
Qed.

(** [Dashboard] never throws under a provider. *)
Lemma Dashboard_total (context : AuthContextType)
    (outer : list AuthContextType) :
  is_Ok (Dashboard (context :: outer)) = true.
Proof.
  destruct context as [[u|] ld]; [|reflexivity].
  unfold Dashboard. simpl.
  destruct (User.roles u) as [|a rest]; reflexivity.
Qed.

(* ===================================================================== *)
(** ** [login]                                                             *)
(* ===================================================================== *)

Section Login.
Context {platform : Platform}.

(** No active row for an email: the address is unknown, or every account
    that carries it is deactivated. *)
Lemma active_users_nil_iff (s : Supabase) (email : string) :
  active_users s email = []
  <-> forall row, In row (tbl_users s) -> users.email row = email ->
                  users.is_active row = false.
Proof.
  unfold active_users. split.
  - intros Hnil row Hin Hemail.
    destruct (users.is_active row) eqn:Hact; [|reflexivity].
    assert (Hrow : row ∈ filter (fun row => users.email row = email
                                          /\ users.is_active row = true)
                          (tbl_users s))
      by (apply list_elem_of_filter; split; [auto | apply list_elem_of_In, Hin]).
    rewrite Hnil in Hrow. inversion Hrow.
  - intros Hall.
    destruct (filter _ (tbl_users s)) as [|row rows] eqn:E; [reflexivity|].
    assert (Hrow : row ∈ row :: rows) by left.
    rewrite <- E in Hrow. apply list_elem_of_filter in Hrow as [[He Ha] Hin].
    apply list_elem_of_In in Hin. rewrite (Hall row Hin He) in Ha.
    discriminate.
Qed.

(** The one way past the first check: the lookup answered without error
    and with a row. *)
Lemma select_user_data (w : World) (email : string) (row : users.Row) :
  failure (supabase w) users_table = None ->
  active_users (supabase w) email = [row] ->
  select_user email w = (w, Ok (mkResponse (Some row) None)).
Proof. intros Hf Hrows. unfold select_user. rewrite Hf, Hrows. reflexivity. Qed.

(** [login] rejects with the same error, and touches nothing, whenever the
    lookup yields no single active row or the password does not match the
    row it yields. *)
Lemma login_invalid (w : World) (email password : string) :
  (forall row, active_users (supabase w) email = [row] ->
               bcrypt_compare password (users.password_hash row) = false) ->
  login email password w = (w, Throw invalid_credentials).
Proof.
  intros Hpw. unfold login, mbind, Async_bind, select_user.
  destruct (failure (supabase w) users_table) as [e|]; [reflexivity|].
  destruct (active_users (supabase w) email) as [|row [|row' rows]];
    [reflexivity | | reflexivity].
  simpl. rewrite (Hpw row eq_refl). reflexivity.
Qed.

(** C3. A login with an unknown or inactive email and a login with a known
    active email and a password that does not match its hash are rejected
    with one and the same result: the error 'Invalid email or password',
    the world left as it was. Nothing in the result tells which check
    failed. *)
Theorem invalid_credentials_uniform (w : World)
    (email1 password1 email2 password2 : string) (row : users.Row) :
  active_users (supabase w) email1 = [] ->
  active_users (supabase w) email2 = [row] ->
  bcrypt_compare password2 (users.password_hash row) = false ->
  login email1 password1 w = (w, Throw invalid_credentials)
  /\ login email2 password2 w = login email1 password1 w.
Proof.
  intros Hnone Hone Hpw.
  assert (H1 : login email1 password1 w = (w, Throw invalid_credentials)).
  { apply login_invalid. intros r Hr. rewrite Hnone in Hr. discriminate. }
  assert (H2 : login email2 password2 w = (w, Throw invalid_credentials)).
  { apply login_invalid. intros r Hr. rewrite Hone in Hr.
    injection Hr as <-. exact Hpw. }
  split; [exact H1 | rewrite H1, H2; reflexivity].
Qed.

(** C5. When the password is verified and the role query then fails,
    [login] rejects with 'Failed to fetch user roles' and the world is the
    one it started from: [user] is not set and nothing is written under the
    storage key. *)
Theorem role_fetch_failure_aborts (w : World) (email password : string)
    (row : users.Row) (e : PostgrestError) :
  failure (supabase w) users_table = None ->
  active_users (supabase w) email = [row] ->
  bcrypt_compare password (users.password_hash row) = true ->
  failure (supabase w) user_roles_table = Some e ->
  login email password w
  = (w, Throw (new_Error "Failed to fetch user roles"))
  /\ session (fst (login email password w)) = session w.
Proof.
  intros Hf Hrow Hpw Hroles.
  assert (HL : login email password w
               = (w, Throw (new_Error "Failed to fetch user roles"))).
  { unfold login, mbind, Async_bind.
    rewrite (select_user_data w email row Hf Hrow). simpl.
    rewrite Hpw. simpl. unfold select_user_roles. rewrite Hroles.
    reflexivity. }
  split; [exact HL | rewrite HL; reflexivity].
Qed.

(** The success path, for reference: the session user carries exactly the
    active assignments of the row's id, and the record is stored. *)
Lemma login_success (w : World) (email password : string) (row : users.Row) :
  failure (supabase w) users_table = None ->
  active_users (supabase w) email = [row] ->
  bcrypt_compare password (users.password_hash row) = true ->
  failure (supabase w) user_roles_table = None ->
  let u := session_user row (active_roles (supabase w) (users.id row)) in
  snd (login email password w) = Ok tt
  /\ session (fst (login email password w)) = (Some u, Some (JSON_stringify u)).
Proof.
  intros Hf Hrow Hpw Hroles u.
  unfold login, mbind, Async_bind.
  rewrite (select_user_data w email row Hf Hrow). simpl.
  rewrite Hpw. simpl. unfold select_user_roles. rewrite Hroles. simpl.
  unfold insert_activity_log. simpl.
  destruct (failure (supabase w) activity_logs_table); simpl;
    (split; [reflexivity|]); unfold session; simpl;
    rewrite lookup_insert_eq; reflexivity.
Qed.

(** A user without an active assignment who logs in lands on the
    restricted element. *)
Lemma login_without_assignment (w : World) (email password : string)
    (row : users.Row) (outer : list AuthContextType) :
  failure (supabase w) users_table = None ->
  active_users (supabase w) email = [row] ->
  bcrypt_compare password (users.password_hash row) = true ->
  failure (supabase w) user_roles_table = None ->
  active_roles (supabase w) (users.id row) = [] ->
  Dashboard (auth (fst (login email password w)) :: outer)
  = Ok NoRoleAssigned.
Proof.
  intros Hf Hrow Hpw Hroles Hnone.
  destruct (login_success w email password row Hf Hrow Hpw Hroles) as [_ Hs].
  unfold session in Hs. injection Hs as Hu _.
  destruct (auth (fst (login email password w))) as [u' ld]. simpl in Hu.
  subst u'. apply Dashboard_empty_roles. rewrite Hnone. reflexivity.
Qed.

(** Every assignment of a session user built by [login] is active. *)
Lemma active_roles_active (s : Supabase) (user_id : string) (a : UserRole.t) :
  In a (active_roles s user_id) -> UserRole.is_active a = true.
Proof.
  unfold active_roles. rewrite <- list_elem_of_In, list_elem_of_filter.
  intros [Ha _]. exact Ha.
Qed.

End Login.

Lemma invalid_credentials_uniform_witness :
  login (platform := sample_platform) "nobody@example.com" "password123"
        (fresh_world sample_store)
  = (fresh_world sample_store, Throw invalid_credentials)
  /\ login (platform := sample_platform) "amine@example.com" "letmein"
           (fresh_world sample_store)
     = login (platform := sample_platform) "nobody@example.com" "password123"
             (fresh_world sample_store).
Proof.
  apply (invalid_credentials_uniform (platform := sample_platform)
           (fresh_world sample_store) "nobody@example.com" "password123"
           "amine@example.com" "letmein" amine_row); reflexivity.
Defined.

Lemma role_fetch_failure_aborts_witness :
  login (platform := sample_platform) "amine@example.com" "password123"
        (fresh_world store_roles_down)
  = (fresh_world store_roles_down,
     Throw (new_Error "Failed to fetch user roles"))
  /\ session (fst (login (platform := sample_platform) "amine@example.com"
                         "password123" (fresh_world store_roles_down)))
     = session (fresh_world store_roles_down).
Proof.
  apply (role_fetch_failure_aborts (platform := sample_platform)
           (fresh_world store_roles_down) "amine@example.com" "password123"
           amine_row (mkPostgrestError "503" "Service Unavailable"));
    reflexivity.
Defined.

(* ===================================================================== *)
(** ** Session restore at start-up                                         *)
(* ===================================================================== *)

Section Restore.
Context {platform : Platform}.

Lemma truthy_nonempty (text : string) : text <> "" -> truthy text = true.
Proof.
  intros Hne. unfold truthy. apply String.eqb_neq in Hne. rewrite Hne.
  reflexivity.
Qed.

(** No record under the key: logged out, loading finished, no error. *)
Lemma restore_session_absent (w : World) :
  localStorage w !! "user" = None ->
  restore_session w
  = (mkWorld (mkAuth (user (auth w)) false) (localStorage w) (supabase w),
     Ok tt).
Proof.
  intros Habs. unfold restore_session, mbind, Async_bind, getItem.
  rewrite Habs. reflexivity.
Qed.

(** A record that parses to a user: the session is restored with it. *)
Lemma restore_session_record (w : World) (text : string) (u : User.t) :
  localStorage w !! "user" = Some text ->
  truthy text = true ->
  JSON_parse text = Ok (Some u) ->
  restore_session w
  = (mkWorld (mkAuth (Some u) false) (localStorage w) (supabase w), Ok tt).
Proof.
  intros Hget Hne Hparse. unfold restore_session, mbind, Async_bind, getItem.
  rewrite Hget, Hne, Hparse. reflexivity.
Qed.

(** C6, the malformed case on the code. When the text stored under the key
    is not JSON, so that [JSON.parse] throws, the start-up effect throws that
    error: it does not settle in the logged-out state, and [loading] is
    never cleared. *)
Theorem restore_session_malformed_throws (w : World) (text : string)
    (e : Error) :
  localStorage w !! "user" = Some text ->
  truthy text = true ->
  JSON_parse text = Throw e ->
  restore_session w = (w, Throw e)
  /\ loading (auth (fst (restore_session w))) = loading (auth w).
Proof.
  intros Hget Hne Hparse.
  assert (HR : restore_session w = (w, Throw e)).
  { unfold restore_session, mbind, Async_bind, getItem.
    rewrite Hget, Hne, Hparse. reflexivity. }
  split; [exact HR | rewrite HR; reflexivity].
Qed.

End Restore.

Lemma restore_session_malformed_throws_witness :
  restore_session (platform := sample_platform) corrupt_world
  = (corrupt_world, Throw (mkError "SyntaxError" "Unexpected token in JSON"))
  /\ loading (auth (fst (restore_session (platform := sample_platform)
                           corrupt_world)))
     = loading (auth corrupt_world).
Proof.
  apply (restore_session_malformed_throws (platform := sample_platform)
           corrupt_world "{oops"
           (mkError "SyntaxError" "Unexpected token in JSON"));
    reflexivity.
Defined.

(* ===================================================================== *)
(** ** [logout]                                                            *)
(* ===================================================================== *)

Lemma logout_clears (captured : option User.t) (w : World) :
  snd (logout captured w) = Ok tt
  /\ session (fst (logout captured w)) = (None, None).
Proof.
  unfold logout, mbind, Async_bind, session.
  destruct captured as [u|]; simpl.
  - unfold insert_activity_log.
    destruct (failure (supabase w) activity_logs_table); simpl;
      rewrite lookup_delete_eq; split; reflexivity.
  - rewrite lookup_delete_eq. split; reflexivity.
Qed.

(** C7. Logging out twice in a row, whatever [user] each call captured:
    neither call throws, and after each of them the session is cleared,
    [user] is [null] and no record is stored under the key. *)
Theorem logout_twice (w : World) (captured1 captured2 : option User.t) :
  let after1 := logout captured1 w in
  let after2 := logout captured2 (fst after1) in
  snd after1 = Ok tt /\ session (fst after1) = (None, None)
  /\ snd after2 = Ok tt /\ session (fst after2) = (None, None)
  /\ session (fst after2) = session (fst after1).
Proof.
  cbv zeta.
  destruct (logout_clears captured1 w) as [H1 H2].
  destruct (logout_clears captured2 (fst (logout captured1 w))) as [H3 H4].
  rewrite H2, H4. repeat split; assumption.
Qed.

(** A second logout that sees the cleared [user] changes nothing at all. *)
Lemma logout_logged_out_fixpoint (captured : option User.t) (w : World) :
  let w1 := fst (logout captured w) in
  fst (logout (user (auth w1)) w1) = w1.
Proof.
  cbv zeta. unfold logout, mbind, Async_bind.
  destruct captured as [u|]; simpl.
  - unfold insert_activity_log.
    destruct (failure (supabase w) activity_logs_table); simpl;
      unfold removeItem; simpl; rewrite delete_delete_eq; reflexivity.
  - unfold removeItem; simpl. rewrite delete_delete_eq. reflexivity.
Qed.

(* ===================================================================== *)
(** ** The row-level policies                                              *)
(* ===================================================================== *)

Module ScopeFacts.
Import Sql Scope.

(** *** Three-valued conditions that hold *)

Lemma holds_and (a b : tri) : holds (sql_and a b) = holds a && holds b.
Proof. destruct a as [[|]|], b as [[|]|]; reflexivity. Qed.

Lemma holds_or (a b : tri) : holds (sql_or a b) = holds a || holds b.
Proof. destruct a as [[|]|], b as [[|]|]; reflexivity. Qed.

Lemma holds_Some (b : bool) : holds (Some b) = b.
Proof. destruct b; reflexivity. Qed.

Lemma holds_is_true (flag : option bool) :
  holds (sql_is_true flag) = true <-> flag = Some true.
Proof. destruct flag as [[|]|]; simpl; split; congruence. Qed.

(** An equality holds only between two equal values, neither of them NULL. *)
Lemma holds_eq (a b : option uuid) :
  holds (sql_eq a b) = true <-> exists x, a = Some x /\ b = Some x.
Proof.
  destruct a as [x|], b as [y|]; cbn [sql_eq].
  - rewrite holds_Some, String.eqb_eq. split.
    + intros ->. eauto.
    + intros (z & [= ->] & [= ->]). reflexivity.
  - split; [discriminate | intros (z & _ & [=])].
  - split; [discriminate | intros (z & [=] & _)].
  - split; [discriminate | intros (z & [=] & _)].
Qed.

Lemma holds_eq_Some (a : option uuid) (y : uuid) :
  holds (sql_eq a (Some y)) = true <-> a = Some y.
Proof.
  rewrite holds_eq. split.
  - intros (x & -> & [= ->]). reflexivity.
  - intros ->. eauto.
Qed.

Lemma holds_eq_None (a : option uuid) : holds (sql_eq a None) = false.
Proof. destruct a; reflexivity. Qed.

(** *** The subqueries *)

Section Subqueries.
Variable db : Database.
Variable u : uuid.

Lemma join_role_iff (ur : user_roles.Row) (r : roles.Row) :
  join_role ur r = true <-> user_roles.role_id ur = Some (roles.id r).
Proof. apply holds_eq_Some. Qed.

Lemma join_client_iff (p : proposals.Row) (c : clients.Row) :
  join_client p c = true <-> proposals.client_id p = Some (clients.id c).
Proof.
  unfold join_client. rewrite holds_eq. split.
  - intros (x & [= ->] & ->). reflexivity.
  - intros ->. eauto.
Qed.

Lemma join_proposal_iff (s : sales.Row) (p : proposals.Row) :
  join_proposal s p = true <-> sales.proposal_id s = Some (proposals.id p).
Proof.
  unfold join_proposal. rewrite holds_eq. split.
  - intros (x & [= ->] & ->). reflexivity.
  - intros ->. eauto.
Qed.

Lemma where_super_admin_iff (ur : user_roles.Row) (r : roles.Row) :
  holds (where_super_admin (Some u) ur r) = true
  <-> user_roles.user_id ur = Some u /\ roles.name r = "Super Admin"
      /\ user_roles.is_active ur = Some true.
Proof.
  unfold where_super_admin.
  rewrite !holds_and, !andb_true_iff, holds_eq_Some, holds_Some,
    String.eqb_eq, holds_is_true. tauto.
Qed.

Lemma where_company_admin_iff (ur : user_roles.Row) (r : roles.Row)
    (company_id : option uuid) :
  holds (where_company_admin (Some u) ur r company_id) = true
  <-> user_roles.user_id ur = Some u
      /\ (exists k, company_id = Some k /\ user_roles.company_id ur = Some k)
      /\ roles.name r = "Company Admin"
      /\ user_roles.is_active ur = Some true.
Proof.
  unfold where_company_admin.
  rewrite !holds_and, !andb_true_iff, holds_eq_Some, holds_eq, holds_Some,
    String.eqb_eq, holds_is_true.
  split.
  - intros [[[? (k & ? & ?)] ?] ?]. eauto 8.
  - intros (? & (k & ? & ?) & ? & ?). eauto 8.
Qed.

Lemma where_site_iff (ur : user_roles.Row) (site_id : option uuid) :
  holds (where_site (Some u) ur site_id) = true
  <-> user_roles.user_id ur = Some u
      /\ (exists s, site_id = Some s /\ user_roles.site_id ur = Some s)
      /\ user_roles.is_active ur = Some true.
Proof.
  unfold where_site.
  rewrite !holds_and, !andb_true_iff, holds_eq_Some, holds_eq, holds_is_true.
  split.
  - intros [[? (s & ? & ?)] ?]. eauto 8.
  - intros (? & (s & ? & ?) & ?). eauto 8.
Qed.

Lemma exists_super_admin_iff :
  exists_super_admin db (Some u) = true <-> super_admin db u.
Proof.
  unfold exists_super_admin, super_admin, active_assignment, role_named.
  rewrite existsb_exists. split.
  - intros (ur & Hur & Hx). apply existsb_exists in Hx as (r & Hr & Hx).
    apply andb_true_iff in Hx as [Hj Hw].
    apply join_role_iff in Hj. apply where_super_admin_iff in Hw.
    exists ur. split; [tauto|]. exists r. tauto.
  - intros (ur & (Hur & Hu & Ha) & r & Hr & Hj & Hn).
    exists ur. split; [exact Hur|]. apply existsb_exists.
    exists r. split; [exact Hr|]. apply andb_true_iff. split.
    + apply join_role_iff, Hj.
    + apply where_super_admin_iff. tauto.
Qed.

(** The company-admin subquery for a fixed client row. *)
Lemma company_branch_iff (c : clients.Row) :
  existsb (fun ur =>
    existsb (fun r =>
      join_role ur r
      && holds (where_company_admin (Some u) ur r (clients.company_id c)))
      (tbl_roles db))
    (tbl_user_roles db) = true
  <-> exists k, clients.company_id c = Some k /\ company_admin_of db u k.
Proof.
  unfold company_admin_of, active_assignment, role_named.
  rewrite existsb_exists. split.
  - intros (ur & Hur & Hx). apply existsb_exists in Hx as (r & Hr & Hx).
    apply andb_true_iff in Hx as [Hj Hw].
    apply join_role_iff in Hj.
    apply where_company_admin_iff in Hw as (Hu & (k & Hk & Hc) & Hn & Ha).
    exists k. split; [exact Hk|]. exists ur. eauto 10.
  - intros (k & Hk & ur & (Hur & Hu & Ha) & (r & Hr & Hj & Hn) & Hc).
    exists ur. split; [exact Hur|]. apply existsb_exists.
    exists r. split; [exact Hr|]. apply andb_true_iff. split.
    + apply join_role_iff, Hj.
    + apply where_company_admin_iff. eauto 10.
Qed.

(** The site subquery for a fixed client row. *)
Lemma site_branch_iff (c : clients.Row) :
  existsb (fun ur => holds (where_site (Some u) ur (clients.site_id c)))
    (tbl_user_roles db) = true
  <-> exists s, clients.site_id c = Some s /\ assigned_to_site db u s.
Proof.
  unfold assigned_to_site, active_assignment.
  rewrite existsb_exists. split.
  - intros (ur & Hur & Hw).
    apply where_site_iff in Hw as (Hu & (s & Hs & Hc) & Ha).
    exists s. split; [exact Hs|]. exists ur. tauto.
  - intros (s & Hs & ur & (Hur & Hu & Ha) & Hc).
    exists ur. split; [exact Hur|]. apply where_site_iff. eauto 8.
Qed.

Lemma clients_using_iff (c : clients.Row) :
  clients_using db (Some u) c = true <-> passes_client db u c.
Proof.
  unfold clients_using, passes_client, in_scope.
  rewrite !holds_or, !orb_true_iff, !holds_Some, holds_eq_Some,
    exists_super_admin_iff, company_branch_iff, site_branch_iff.
  tauto.
Qed.

(** The company-admin subquery of the [proposals] policy. *)
Lemma proposal_company_branch_iff (p : proposals.Row) :
  existsb (fun ur =>
    existsb (fun r =>
      existsb (fun c =>
        join_role ur r && join_client p c
        && holds (where_company_admin (Some u) ur r (clients.company_id c)))
        (tbl_clients db))
      (tbl_roles db))
    (tbl_user_roles db) = true
  <-> exists c, client_of db p c
                /\ exists k, clients.company_id c = Some k
                             /\ company_admin_of db u k.
Proof.
  unfold client_of. split.
  - intros Hx. apply existsb_exists in Hx as (ur & Hur & Hx).
    apply existsb_exists in Hx as (r & Hr & Hx).
    apply existsb_exists in Hx as (c & Hc & Hx).
    apply andb_true_iff in Hx as [Hx Hw].
    apply andb_true_iff in Hx as [Hj Hjc].
    apply join_client_iff in Hjc.
    exists c. split; [tauto|]. apply company_branch_iff.
    apply existsb_exists. exists ur. split; [exact Hur|].
    apply existsb_exists. exists r. split; [exact Hr|].
    rewrite Hj, Hw. reflexivity.
  - intros (c & [Hc Hjc] & Hk).
    apply company_branch_iff in Hk.
    apply existsb_exists in Hk as (ur & Hur & Hx).
    apply existsb_exists in Hx as (r & Hr & Hx).
    apply existsb_exists. exists ur. split; [exact Hur|].
    apply existsb_exists. exists r. split; [exact Hr|].
    apply existsb_exists. exists c. split; [exact Hc|].
    apply andb_true_iff in Hx as [Hj Hw].
    apply join_client_iff in Hjc. rewrite Hj, Hjc, Hw. reflexivity.
Qed.

(** The site subquery of the [proposals] policy. *)
Lemma proposal_site_branch_iff (p : proposals.Row) :
  existsb (fun ur =>
    existsb (fun c =>
      join_client p c && holds (where_site (Some u) ur (clients.site_id c)))
      (tbl_clients db))
    (tbl_user_roles db) = true
  <-> exists c, client_of db p c
                /\ exists s, clients.site_id c = Some s
                             /\ assigned_to_site db u s.
Proof.
  unfold client_of. split.
  - intros Hx. apply existsb_exists in Hx as (ur & Hur & Hx).
    apply existsb_exists in Hx as (c & Hc & Hx).
    apply andb_true_iff in Hx as [Hjc Hw].
    apply join_client_iff in Hjc.
    exists c. split; [tauto|]. apply site_branch_iff.
    apply existsb_exists. exists ur. tauto.
  - intros (c & [Hc Hjc] & Hs).
    apply site_branch_iff in Hs.
    apply existsb_exists in Hs as (ur & Hur & Hw).
    apply existsb_exists. exists ur. split; [exact Hur|].
    apply existsb_exists. exists c. split; [exact Hc|].
    apply join_client_iff in Hjc. rewrite Hjc, Hw. reflexivity.
Qed.

Lemma proposals_using_iff (p : proposals.Row) :
  proposals_using db (Some u) p = true <-> passes_proposal db u p.
Proof.
  unfold proposals_using, passes_proposal, in_scope.
  rewrite !holds_or, !orb_true_iff, !holds_Some, holds_eq_Some,
    exists_super_admin_iff, proposal_company_branch_iff,
    proposal_site_branch_iff.
  split.
  - intros [[[?|(c & ? & ?)]|(c & ? & ?)]|?]; eauto 6.
  - intros [?|[(c & ? & [?|?])|?]]; eauto 8.
Qed.

(** The company-admin subquery of the [sales] policy. *)
Lemma sale_company_branch_iff (s : sales.Row) :
  existsb (fun ur =>
    existsb (fun r =>
      existsb (fun p =>
        existsb (fun c =>
          join_role ur r && join_proposal s p && join_client p c
          && holds (where_company_admin (Some u) ur r (clients.company_id c)))
          (tbl_clients db))
        (tbl_proposals db))
      (tbl_roles db))
    (tbl_user_roles db) = true
  <-> exists p c, proposal_of db s p /\ client_of db p c
                  /\ exists k, clients.company_id c = Some k
                               /\ company_admin_of db u k.
Proof.
  unfold proposal_of, client_of. split.
  - intros Hx. apply existsb_exists in Hx as (ur & Hur & Hx).
    apply existsb_exists in Hx as (r & Hr & Hx).
    apply existsb_exists in Hx as (p & Hp & Hx).
    apply existsb_exists in Hx as (c & Hc & Hx).
    apply andb_true_iff in Hx as [Hx Hw].
    apply andb_true_iff in Hx as [Hx Hjc].
    apply andb_true_iff in Hx as [Hj Hjp].
    apply join_client_iff in Hjc. apply join_proposal_iff in Hjp.
    exists p, c. split; [tauto|]. split; [tauto|]. apply company_branch_iff.
    apply existsb_exists. exists ur. split; [exact Hur|].
    apply existsb_exists. exists r. split; [exact Hr|].
    rewrite Hj, Hw. reflexivity.
  - intros (p & c & [Hp Hjp] & [Hc Hjc] & Hk).
    apply company_branch_iff in Hk.
    apply existsb_exists in Hk as (ur & Hur & Hx).
    apply existsb_exists in Hx as (r & Hr & Hx).
    apply existsb_exists. exists ur. split; [exact Hur|].
    apply existsb_exists. exists r. split; [exact Hr|].
    apply existsb_exists. exists p. split; [exact Hp|].
    apply existsb_exists. exists c. split; [exact Hc|].
    apply andb_true_iff in Hx as [Hj Hw].
    apply join_client_iff in Hjc. apply join_proposal_iff in Hjp.
    rewrite Hj, Hjp, Hjc, Hw. reflexivity.
Qed.

(** The site subquery of the [sales] policy. *)
Lemma sale_site_branch_iff (s : sales.Row) :
  existsb (fun ur =>
    existsb (fun p =>
      existsb (fun c =>
        join_proposal s p && join_client p c
        && holds (where_site (Some u) ur (clients.site_id c)))
        (tbl_clients db))
      (tbl_proposals db))
    (tbl_user_roles db) = true
  <-> exists p c, proposal_of db s p /\ client_of db p c
                  /\ exists st, clients.site_id c = Some st
                                /\ assigned_to_site db u st.
Proof.
  unfold proposal_of, client_of. split.
  - intros Hx. apply existsb_exists in Hx as (ur & Hur & Hx).
    apply existsb_exists in Hx as (p & Hp & Hx).
    apply existsb_exists in Hx as (c & Hc & Hx).
    apply andb_true_iff in Hx as [Hx Hw].
    apply andb_true_iff in Hx as [Hjp Hjc].
    apply join_client_iff in Hjc. apply join_proposal_iff in Hjp.
    exists p, c. split; [tauto|]. split; [tauto|]. apply site_branch_iff.
    apply existsb_exists. exists ur. tauto.
  - intros (p & c & [Hp Hjp] & [Hc Hjc] & Hs).
    apply site_branch_iff in Hs.
    apply existsb_exists in Hs as (ur & Hur & Hw).
    apply existsb_exists. exists ur. split; [exact Hur|].
    apply existsb_exists. exists p. split; [exact Hp|].
    apply existsb_exists. exists c. split; [exact Hc|].
    apply join_client_iff in Hjc. apply join_proposal_iff in Hjp.
    rewrite Hjp, Hjc, Hw. reflexivity.
Qed.

Lemma sales_using_iff (s : sales.Row) :
  sales_using db (Some u) s = true <-> passes_sale db u s.
Proof.
  unfold sales_using, passes_sale, in_scope.
  rewrite !holds_or, !orb_true_iff, !holds_Some, holds_eq_Some,
    exists_super_admin_iff, sale_company_branch_iff, sale_site_branch_iff.
  split.
  - intros [[[?|(p & c & ? & ? & ?)]|(p & c & ? & ? & ?)]|?]; eauto 8.
  - intros [?|[(p & c & ? & ? & [?|?])|?]]; eauto 10.
Qed.

End Subqueries.

End ScopeFacts.

Module RowSecurity.
Import Sql Scope ScopeFacts.

(** The policy of [user_roles] selects from [user_roles]: adding the
    policies of any relation whose policies read [user_roles] comes back to
    it. [roles] alone is free of it. *)
Lemma recursion_through_user_roles :
  recursion_in expansion_depth [] rel_roles = None
  /\ forall t, t <> rel_roles ->
               recursion_in expansion_depth [] t = Some rel_user_roles.
Proof.
  split; [reflexivity|]. intros [] Ht; try reflexivity. congruence.
Qed.

(** Deeper expansion finds the same: the answer does not hang on the
    bound. *)
Lemma recursion_in_deeper (extra : nat) (t : Relation) :
  recursion_in (expansion_depth + extra) [] t
  = recursion_in expansion_depth [] t.
Proof. destruct t; reflexivity. Qed.

(** [roles] is readable by everyone, in full. *)
Lemma roles_are_readable (session : Session) (db : Database)
    (uid : option uuid) :
  sql_select_roles session db uid = Rows (tbl_roles db).
Proof.
  destruct session; unfold sql_select_roles, select_from; simpl;
    [|reflexivity].
  f_equal. induction (tbl_roles db) as [|r l IH]; simpl; congruence.
Qed.

(** A role that is not subject to row security reads every row, whoever
    the caller is. *)
Lemma bypass_reads_everything (db : Database) (uid : option uuid) :
  sql_select_clients bypassing_row_security db uid = Rows (tbl_clients db)
  /\ sql_select_proposals bypassing_row_security db uid
     = Rows (tbl_proposals db)
  /\ sql_select_sales bypassing_row_security db uid = Rows (tbl_sales db).
Proof. repeat split. Qed.

(** C1 on the code. Under row security no caller is shown any client,
    proposal or sale, whatever the rows and whatever the caller's
    assignments: each of the three policies selects from [user_roles],
    whose own [FOR ALL] policy selects from [user_roles] again, and the
    statement is refused with SQLSTATE 42P17. On the sample rows of the
    migration the claim makes the proposal 'Cloud Migration Services'
    visible to the site manager of its client's site, whose boundary is
    that site, and every row visible to the super admin, whose boundary is
    Global. *)
Theorem scoped_reads_are_refused :
  (forall (db : Database) (uid : option uuid),
      sql_select_clients under_row_security db uid
      = Refused "42P17" rel_user_roles
      /\ sql_select_proposals under_row_security db uid
         = Refused "42P17" rel_user_roles
      /\ sql_select_sales under_row_security db uid
         = Refused "42P17" rel_user_roles)
  /\ In cloud_migration (tbl_proposals sample_db)
  /\ spec_boundary sample_db "amine@example.com"
     = Some (SiteScoped "TechCorp HQ")
  /\ spec_proposal_visible sample_db (SiteScoped "TechCorp HQ")
       cloud_migration = true
  /\ spec_boundary sample_db "superadmin@example.com" = Some Global
  /\ spec_client_visible Global acme = true.
Proof.
  split; [intros db uid; repeat split|].
  split; [right; left; reflexivity|].
  repeat split; vm_compute; reflexivity.
Qed.

(** The assignments themselves are as unreadable, to their owner too. *)
Lemma user_roles_reads_are_refused (db : Database) (uid : option uuid) :
  sql_select_user_roles under_row_security db uid
  = Refused "42P17" rel_user_roles.
Proof. reflexivity. Qed.

(** *** The expressions by themselves

    What follows is about the [USING] expressions as written, over a
    database [db] handed to their sub-selects; it says nothing about what a
    statement returns. *)

(** The last disjunct has no role condition, although its comment reads
    "Commercial can see their proposals": on the sample rows the expression
    holds for the company admin of the first company and the proposal that
    caller created for a client of the second. *)
Example own_record_test_has_no_role_condition :
  In manufacturing_automation (tbl_proposals sample_db)
  /\ spec_boundary sample_db "admin@example.com"
     = Some (CompanyScoped "TechCorp Solutions")
  /\ spec_proposal_visible sample_db (CompanyScoped "TechCorp Solutions")
       manufacturing_automation = false
  /\ proposals_using sample_db (Some "admin@example.com")
       manufacturing_automation = true.
Proof.
  split; [right; right; right; left; reflexivity|].
  split; [reflexivity|]. split; vm_compute; reflexivity.
Qed.

(** The site sub-select has no role condition, although its comment reads
    "Site manager can see site clients": the expression holds for a
    commercial assigned to a site and a client of that site assigned to
    somebody else. *)
Example site_test_has_no_role_condition :
  spec_boundary scenario_db "youssef@example.com"
  = Some (SelfScoped "youssef@example.com")
  /\ spec_client_visible (SelfScoped "youssef@example.com") acme = false
  /\ clients_using scenario_db (Some "youssef@example.com") acme = true.
Proof. repeat split; vm_compute; reflexivity. Qed.

(** Without a caller identity every comparison with [auth.uid()] is
    unknown, and none of the three expressions holds. *)
Lemma anonymous_passes_nothing (db : Database) :
  (forall c, clients_using db None c = false)
  /\ (forall p, proposals_using db None p = false)
  /\ (forall s, sales_using db None s = false).
Proof.
  assert (Hw1 : forall ur r, holds (where_super_admin None ur r) = false).
  { intros ur r. unfold where_super_admin.
    rewrite !holds_and, holds_eq_None. reflexivity. }
  assert (Hw2 : forall ur r k, holds (where_company_admin None ur r k) = false).
  { intros ur r k. unfold where_company_admin.
    rewrite !holds_and, holds_eq_None. reflexivity. }
  assert (Hw3 : forall ur k, holds (where_site None ur k) = false).
  { intros ur k. unfold where_site.
    rewrite !holds_and, holds_eq_None. reflexivity. }
  assert (Hex : forall (A : Type) (l : list A) (f : A -> bool),
             (forall x, f x = false) -> existsb f l = false).
  { intros A l f Hf. induction l as [|x l IH]; simpl; [reflexivity|].
    rewrite Hf, IH. reflexivity. }
  assert (Hsa : exists_super_admin db None = false).
  { unfold exists_super_admin. apply Hex. intros ur. apply Hex. intros r.
    rewrite Hw1. apply andb_false_r. }
  split; [|split].
  - intros c. unfold clients_using.
    rewrite !holds_or, !holds_Some, Hsa, holds_eq_None.
    rewrite (Hex _ _ _ (fun ur => Hw3 ur _)).
    rewrite Hex; [reflexivity|]. intros ur. apply Hex. intros r.
    rewrite Hw2. apply andb_false_r.
  - intros p. unfold proposals_using.
    rewrite !holds_or, !holds_Some, Hsa, holds_eq_None.
    rewrite (Hex _ (tbl_user_roles db)
               (fun ur => existsb (fun c => join_client p c && _) _)).
    2:{ intros ur. apply Hex. intros c. rewrite Hw3. apply andb_false_r. }
    rewrite Hex; [reflexivity|]. intros ur. apply Hex. intros r.
    apply Hex. intros c. rewrite Hw2. apply andb_false_r.
  - intros s. unfold sales_using.
    rewrite !holds_or, !holds_Some, Hsa, holds_eq_None.
    rewrite (Hex _ (tbl_user_roles db)
               (fun ur => existsb (fun p => existsb
                  (fun c => join_proposal s p && join_client p c && _) _) _)).
    2:{ intros ur. apply Hex. intros p. apply Hex. intros c.
        rewrite Hw3. apply andb_false_r. }
    rewrite Hex; [reflexivity|]. intros ur. apply Hex. intros r.
    apply Hex. intros p. apply Hex. intros c. rewrite Hw2.
    apply andb_false_r.
Qed.

End RowSecurity.
